(** * A shallow embedding of [script.py]: the AMD RX 460 CPU/GPU monitor.

    The script has three parts: the adapter [get_amd_gpu_stats] that reads
    three optional GPU metrics through pyadl, the sampling loop
    [monitor_system], and [main], which gates on the available
    capabilities, prints an aggregate report and optionally exports a CSV.

    Python floats are modelled as exact rationals [Q]; the wall clock is an
    explicit [Q] threaded through the loop; everything the program prints,
    queries, sleeps or writes is recorded in an event log. *)

From Stdlib Require Import List String Ascii ZArith QArith Qround Lia Lqa Bool.
Import ListNotations.
Open Scope string_scope.

(** ** Python exceptions

    The code distinguishes [AttributeError] (a pyadl method that does not
    exist for this device) from every other [Exception].  Exceptions outside
    [Exception] (KeyboardInterrupt, SystemExit) are not modelled. *)
Inductive exn : Type :=
| AttributeError (msg : string)
| KeyError (msg : string)
| ImportError (msg : string)
| OtherException (msg : string).

(** [str(e)] *)
Definition exn_str (e : exn) : string :=
  match e with
  | AttributeError m | KeyError m | ImportError m | OtherException m => m
  end.

Definition is_attribute_error (e : exn) : bool :=
  match e with AttributeError _ => true | _ => false end.

(** ** Observable events *)
Inductive event : Type :=
| Call (dev : nat) (meth : string)        (** a method call on device [dev] *)
| CallLib (meth : string)                 (** a call on the ADL manager *)
| Print (s : string)                      (** a [print] *)
| Sleep (secs : Q)                        (** a [time.sleep] request *)
| Input (prompt : string)                 (** an [input] prompt *)
| WriteFile (name : string) (lines : list string).  (** [df.to_csv] *)

(** ** A small exception + log monad *)
Definition M (A : Type) : Type := list event * (exn + A).

Definition ret {A} (a : A) : M A := ([], inr a).
Definition raise {A} (e : exn) : M A := ([], inl e).
Definition emit (ev : event) : M unit := ([ev], inr tt).

Definition bind {A B} (m : M A) (k : A -> M B) : M B :=
  match m with
  | (l, inl e) => (l, inl e)
  | (l, inr a) => let '(l', r) := k a in ((l ++ l')%list, r)
  end.

Notation "x <- m ;; k" := (bind m (fun x => k))
  (at level 61, m at next level, right associativity).
Notation "m ;;; k" := (bind m (fun _ => k))
  (at level 61, right associativity).

(** [try: m except <exceptions accepted by p> as e: h e] *)
Definition try_except {A} (p : exn -> bool) (m : M A) (h : exn -> M A) : M A :=
  match m with
  | (l, inl e) => if p e then let '(l', r) := h e in ((l ++ l')%list, r) else (l, inl e)
  | (l, inr a) => (l, inr a)
  end.

(** [except AttributeError:] *)
Definition try_attr {A} (m : M A) (h : M A) : M A :=
  try_except is_attribute_error m (fun _ => h).

(** [except Exception as e:] -- every modelled exception is an [Exception]. *)
Definition try_exception {A} (m : M A) (h : exn -> M A) : M A :=
  try_except (fun _ => true) m h.

(** ** The vendor library (pyadl), as the program sees it

    A method call either returns a number or raises. *)
Inductive outcome (A : Type) : Type :=
| Ok (a : A)
| Raises (e : exn).
Arguments Ok {A} a.
Arguments Raises {A} e.

Definition lift {A} (o : outcome A) : M A :=
  match o with Ok a => ret a | Raises e => raise e end.

(** An ADL device: the four methods the script probes. *)
Record device : Type := mk_device {
  getCurrentUsage : outcome Q;
  getCurrentTemperature : outcome Q;
  getCurrentPower : outcome Q;
  getCurrentPowerValue : outcome Q
}.

(** The ADL library at one instant: [ADLManager.getInstance()] and
    [adl_manager.getDevices()]. *)
Record adl : Type := mk_adl {
  getInstance : outcome unit;
  getDevices : outcome (list device)
}.

Definition call_dev (i : nat) (meth : string) (o : outcome Q) : M Q :=
  emit (Call i meth) ;;; lift o.

Definition call_lib {A} (meth : string) (o : outcome A) : M A :=
  emit (CallLib meth) ;;; lift o.

(** A triple of optional readings: [(utilization, temperature, power)]. *)
Definition gpu_stats : Type := option Q * option Q * option Q.

Definition none3 : gpu_stats := (None, None, None).

Definition gpu_error_msg (e : exn) : string :=
  String (ascii_of_nat 10) "Error al leer GPU AMD: " ++ exn_str e.

(** ** [get_amd_gpu_stats] (script.py, lines 12-57) *)

(** The body of the [try] block, lines 18-53. *)
Definition gpu_read_body (lib : adl) : M gpu_stats :=
  _ <- call_lib "getInstance" (getInstance lib) ;;
  devices <- call_lib "getDevices" (getDevices lib) ;;
  match devices with
  | [] => ret none3
  | gpu :: _ =>
      utilization <- try_attr
        (v <- call_dev 0 "getCurrentUsage" (getCurrentUsage gpu) ;; ret (Some v))
        (ret None) ;;
      temperature <- try_attr
        (v <- call_dev 0 "getCurrentTemperature" (getCurrentTemperature gpu) ;; ret (Some v))
        (ret None) ;;
      power <- try_attr
        (v <- call_dev 0 "getCurrentPower" (getCurrentPower gpu) ;; ret (Some v))
        (try_attr
           (v <- call_dev 0 "getCurrentPowerValue" (getCurrentPowerValue gpu) ;;
            ret (Some (v / 1000)))
           (ret None)) ;;
      ret (utilization, temperature, power)
  end.

Definition get_amd_gpu_stats (amd_gpu_available : bool) (lib : adl) : M gpu_stats :=
  if negb amd_gpu_available then ret none3
  else try_exception (gpu_read_body lib)
         (fun e => emit (Print (gpu_error_msg e)) ;;; ret none3).

Definition printed (l : list event) : list string :=
  flat_map (fun ev => match ev with Print s => [s] | _ => [] end) l.


(** ** Number and time formatting *)

Definition digit (n : Z) : ascii := ascii_of_nat (48 + Z.to_nat n).

(** The last [width] decimal digits of [z], zero padded (strftime's [%H],
    [%M], [%S], [%d], [%m] with width 2, [%Y] with width 4). *)
Fixpoint zpad (width : nat) (z : Z) : string :=
  match width with
  | O => EmptyString
  | S w' => zpad w' (z / 10)%Z ++ String (digit (z mod 10)%Z) EmptyString
  end.

(** [time.strftime("%H:%M:%S")] at the wall-clock instant [t] (seconds, local
    time zone folded into the clock origin): the time of day of the whole
    second containing [t]. *)
Definition strftime_HMS (t : Q) : string :=
  let s := (Qfloor t mod 86400)%Z in
  zpad 2 (s / 3600)%Z ++ ":" ++ zpad 2 ((s mod 3600) / 60)%Z ++ ":" ++ zpad 2 (s mod 60)%Z.

(** A local [struct_time]: the fields [time.strftime] reads. *)
Record struct_time : Type := mk_time {
  tm_year : Z; tm_mon : Z; tm_mday : Z; tm_hour : Z; tm_min : Z; tm_sec : Z
}.

(** [time.strftime('%Y%m%d_%H%M%S')] *)
Definition strftime_YmdHMS (tm : struct_time) : string :=
  zpad 4 (tm_year tm) ++ zpad 2 (tm_mon tm) ++ zpad 2 (tm_mday tm) ++ "_" ++
  zpad 2 (tm_hour tm) ++ zpad 2 (tm_min tm) ++ zpad 2 (tm_sec tm).

(** [max(0, x)]: Python returns the first argument on ties. *)
Definition py_max0 (x : Q) : Q := if Qle_bool x 0 then 0 else x.

Definition q_lt (a b : Q) : bool := negb (Qle_bool b a).

(** ** The run environment

    Everything the script reads from outside: module availability, the
    vendor library and [psutil] as seen at each tick [k], the wall-clock time
    spent in each blocking call, the number formatting of the Python runtime,
    the user's answer and the local time at the save prompt. *)
Record world : Type := mk_world {
  amd_gpu_available : bool;            (** [import pyadl] succeeded *)
  deps_importable : bool;              (** [import psutil], [import pandas] succeed *)
  adl_at : nat -> adl;                 (** pyadl at tick [k] *)
  cpu_percent_at : nat -> Q;           (** [psutil.cpu_percent(interval=0.1)] at tick [k] *)
  cpu_time : nat -> Q;                 (** seconds that call blocks at tick [k] *)
  gpu_time : nat -> Q;                 (** seconds [get_amd_gpu_stats] takes at tick [k] *)
  sleep_extra : nat -> Q;              (** oversleep beyond the request at tick [k] *)
  clock0 : Q;                          (** [time.time()] when [monitor_system] starts *)
  fmt_fixed : nat -> Q -> string;      (** [f"{x:.nf}"] *)
  py_str : Q -> string;                (** [str(x)], also pandas' CSV cell text *)
  response : string;                   (** what [input()] returns *)
  save_time : struct_time;             (** local time at the save prompt *)
  fuel : nat                           (** bound on loop iterations *)
}.

(** ** Samples (the dicts appended in [monitor_system]) *)
Record sample : Type := mk_sample {
  timestamp : string;
  cpu_util : Q;
  gpu_util : option Q;
  gpu_temp : option Q;
  gpu_power : option Q
}.

Section Monitor.
Variable w : world.

(** [f"{x or 'N/A'}"]: [None] and zero are falsy. *)
Definition or_na (x : option Q) : string :=
  match x with
  | None => "N/A"
  | Some q => if Qeq_bool q 0 then "N/A" else py_str w q
  end.

(** The live status line, line 84-85. *)
Definition status_line (cpu : Q) (gu gt gp : option Q) : string :=
  let power_display :=
    match gp with Some p => fmt_fixed w 1 p ++ "W" | None => "N/A" end in
  String (ascii_of_nat 13) "[CPU: " ++ fmt_fixed w 1 cpu ++ "% | GPU: " ++ or_na gu ++
  "% | Temp: " ++ or_na gt ++ "°C | Power: " ++ power_display ++ "]".

(** The [while time.time() < end_time] loop, lines 67-87.  [k] is the tick
    number, [t] the clock; the result is the clock at exit, the events and the
    samples in order.  [None] means the fuel ran out. *)
Fixpoint monitor_loop (fuel : nat) (interval end_time : Q) (k : nat) (t : Q)
    (data : list sample) : option (Q * M (list sample)) :=
  match fuel with
  | O => None
  | S fuel' =>
      if q_lt t end_time then
        let cpu_util := cpu_percent_at w k in
        let t1 := t + cpu_time w k in
        match get_amd_gpu_stats (amd_gpu_available w) (adl_at w k) with
        | (glog, inl e) => Some (t1 + gpu_time w k, (glog, inl e))
        | (glog, inr (gpu_util, gpu_temp, gpu_power)) =>
            let t2 := t1 + gpu_time w k in
            let s := mk_sample (strftime_HMS t2) cpu_util gpu_util gpu_temp gpu_power in
            let pause := py_max0 (interval - (1 # 10)) in
            let ev := (glog ++ [Print (status_line cpu_util gpu_util gpu_temp gpu_power);
                               Sleep pause])%list in
            match monitor_loop fuel' interval end_time (S k)
                    (t2 + pause + sleep_extra w k) (data ++ [s])%list with
            | None => None
            | Some (t', (l, r)) => Some (t', ((ev ++ l)%list, r))
            end
        end
      else Some (t, ([], inr data))
  end.

(** [monitor_system(duration, interval)], lines 59-89. *)
Definition monitor_system (duration interval : Q) : option (Q * M (list sample)) :=
  let end_time := clock0 w + duration in
  let header :=
    [Print (String (ascii_of_nat 10) "Iniciando monitoreo por " ++ py_str w duration ++ " segundos...");
     Print ("GPU AMD detectada: " ++ if amd_gpu_available w then "Sí" else "No")] in
  match monitor_loop (fuel w) interval end_time 0 (clock0 w) [] with
  | None => None
  | Some (t, (l, r)) => Some (t, ((header ++ l)%list, r))
  end.

End Monitor.

(** ** Aggregates (pandas) *)

Definition nl : string := String (ascii_of_nat 10) EmptyString.

(** The non-null cells of a column. *)
Definition present (col : list (option Q)) : list Q :=
  flat_map (fun c => match c with Some q => [q] | None => [] end) col.

(** [Series.isnull().all()] *)
Definition isnull_all (col : list (option Q)) : bool :=
  forallb (fun c => match c with None => true | Some _ => false end) col.

(** [Series.mean()]: pandas skips nulls and divides by the non-null count. *)
Definition series_mean (col : list (option Q)) : Q :=
  fold_right Qplus 0 (present col) / inject_Z (Z.of_nat (List.length (present col))).

(** One GPU line of the report, e.g. lines 120-123. *)
Definition gpu_report_line (w : world) (col : list (option Q))
    (prefix suffix unavailable : string) : string :=
  if negb (isnull_all col) then prefix ++ fmt_fixed w 2 (series_mean col) ++ suffix
  else unavailable.

Definition msg_util_unavailable : string := "- GPU: No se pudo obtener utilización".
Definition msg_temp_unavailable : string := "- GPU: No se pudo obtener temperatura".
Definition msg_power_unavailable : string :=
  "- GPU: El consumo de energía no está disponible para este modelo".

(** The three GPU lines, lines 119-133. *)
Definition gpu_report (w : world) (df : list sample) : list string :=
  [gpu_report_line w (map gpu_util df) "- GPU: Utilización promedio: " "%"
     msg_util_unavailable;
   gpu_report_line w (map gpu_temp df) "- GPU: Temperatura promedio: " "°C"
     msg_temp_unavailable;
   gpu_report_line w (map gpu_power df) "- GPU: Consumo de energía promedio: " " W"
     msg_power_unavailable].

(** Lines 116-133.  [pd.DataFrame([])] has no columns, so [df['cpu_util']]
    raises [KeyError] on an empty collection. *)
Definition aggregate_report (w : world) (df : list sample) : M unit :=
  emit (Print (nl ++ nl ++ "Resultados finales:")) ;;;
  match df with
  | [] => raise (KeyError "'cpu_util'")
  | _ =>
      emit (Print ("- CPU: Utilización promedio: " ++
                   fmt_fixed w 2 (series_mean (map (fun s => Some (cpu_util s)) df)) ++ "%")) ;;;
      if amd_gpu_available w then
        fold_right (fun line m => emit (Print line) ;;; m) (ret tt) (gpu_report w df)
      else ret tt
  end.

(** ** CSV export: [df.to_csv(filename, index=False)]

    The file as its list of lines; the columns are the keys of the appended
    dicts, in order; a null cell is written as the empty field.  (An empty
    frame has no columns; [main] never reaches the export with one.) *)
Definition csv_header : string := "timestamp,cpu_util,gpu_util,gpu_temp,gpu_power".

Definition csv_cell (w : world) (c : option Q) : string :=
  match c with Some q => py_str w q | None => EmptyString end.

Definition csv_row (w : world) (s : sample) : string :=
  timestamp s ++ "," ++ py_str w (cpu_util s) ++ "," ++ csv_cell w (gpu_util s) ++ "," ++
  csv_cell w (gpu_temp s) ++ "," ++ csv_cell w (gpu_power s).

Definition to_csv (w : world) (df : list sample) : list string :=
  match df with
  | [] => []
  | _ => csv_header :: map (csv_row w) df
  end.

(** [str.lower()] on ASCII text. *)
Definition lower_char (c : ascii) : ascii :=
  let n := nat_of_ascii c in
  if (65 <=? n)%nat && (n <=? 90)%nat then ascii_of_nat (n + 32) else c.

Fixpoint lower (s : string) : string :=
  match s with
  | EmptyString => EmptyString
  | String c s' => String (lower_char c) (lower s')
  end.

Definition csv_filename (tm : struct_time) : string :=
  "rx460_monitor_" ++ strftime_YmdHMS tm ++ ".csv".

Definition save_prompt : string := nl ++ "¿Guardar datos en CSV? (s/n): ".

(** Lines 135-140. *)
Definition save_step (w : world) (df : list sample) : M unit :=
  emit (Input save_prompt) ;;;
  let save := lower (response w) in
  if String.eqb save "s" then
    let filename := csv_filename (save_time w) in
    emit (WriteFile filename (to_csv w df)) ;;;
    emit (Print ("Datos guardados en " ++ filename))
  else ret tt.

(** ** [main], lines 91-140 *)

Definition main_prelude : list event :=
  [Print "Sistema de Monitoreo para AMD RX 460 en Windows 10";
   Print ("Versión adaptada para RX 400 series" ++ nl);
   Print "Verificando dependencias..."].

Definition deps_error : list event :=
  [Print "Error: Necesitas instalar psutil y pandas";
   Print "Ejecuta: pip install psutil pandas"].

Definition pyadl_guidance : list event :=
  [Print (nl ++ "ADL no disponible. Instala pyadl para monitorear la GPU AMD");
   Print "Ejecuta: pip install pyadl";
   Print "Asegúrate de tener los drivers AMD Adrenalin instalados";
   Print "Reinicia después de instalar los drivers"].

Definition main (w : world) : option (M unit) :=
  if negb (deps_importable w) then Some ((main_prelude ++ deps_error)%list, inr tt)
  else if negb (amd_gpu_available w) then Some ((main_prelude ++ pyadl_guidance)%list, inr tt)
  else
    match monitor_system w 20 1 with
    | None => None
    | Some (_, m) =>
        let '(l, r) := (df <- m ;; aggregate_report w df ;;; save_step w df) in
        Some ((main_prelude ++ l)%list, r)
    end.

(** ** Helpers used in statements *)

(** The [time.sleep] requests of a log. *)
Definition sleeps (l : list event) : list Q :=
  flat_map (fun ev => match ev with Sleep q => [q] | _ => [] end) l.

(** Only device 0 is ever called. *)
Definition only_device0 (ev : event) : Prop :=
  match ev with Call i _ => i = 0%nat | _ => True end.

(** A sub-reading raises nothing but [AttributeError] (if it raises). *)
Definition attr_only (o : outcome Q) : Prop :=
  match o with Raises e => is_attribute_error e = true | Ok _ => True end.

(** The value of a sub-reading whose [AttributeError] is swallowed. *)
Definition attr_value (o : outcome Q) : option Q :=
  match o with Ok q => Some q | Raises _ => None end.

(** The power reading as the spec describes it: direct watts, else the
    milliwatt reading divided by 1000, else absent. *)
Definition spec_power (d : device) : option Q :=
  match getCurrentPower d with
  | Ok p => Some p
  | Raises _ => match getCurrentPowerValue d with
                | Ok mw => Some (mw / 1000)
                | Raises _ => None
                end
  end.

(** Two digits of a [HH:MM:SS] field. *)
Definition digit_val (c : ascii) : option Z :=
  let n := nat_of_ascii c in
  if (48 <=? n)%nat && (n <=? 57)%nat then Some (Z.of_nat (n - 48)) else None.

Definition two_digits (a b : ascii) : option Z :=
  match digit_val a, digit_val b with
  | Some x, Some y => Some (10 * x + y)%Z
  | _, _ => None
  end.

(** Seconds since midnight of a [HH:MM:SS] timestamp. *)
Definition hms_seconds (s : string) : option Z :=
  match s with
  | String h1 (String h2 (String c1 (String m1 (String m2 (String c2
      (String s1 (String s2 EmptyString))))))) =>
      if Ascii.eqb c1 ":" && Ascii.eqb c2 ":" then
        match two_digits h1 h2, two_digits m1 m2, two_digits s1 s2 with
        | Some h, Some m, Some x => Some (3600 * h + 60 * m + x)%Z
        | _, _, _ => None
        end
      else None
  | _ => None
  end.

(** The wall-clock time, in seconds, between the first and the last
    timestamp of a collection. *)
Definition timestamp_span (data : list sample) : option Z :=
  match data with
  | [] => None
  | s0 :: _ =>
      match hms_seconds (timestamp s0), hms_seconds (timestamp (last data s0)) with
      | Some a, Some b => Some (b - a)%Z
      | _, _ => None
      end
  end.

(** The same run with other number formatting for the console. *)
Definition with_display (w : world) (f : nat -> Q -> string) (g : Q -> string) : world :=
  {| amd_gpu_available := amd_gpu_available w; deps_importable := deps_importable w;
     adl_at := adl_at w; cpu_percent_at := cpu_percent_at w; cpu_time := cpu_time w;
     gpu_time := gpu_time w; sleep_extra := sleep_extra w; clock0 := clock0 w;
     fmt_fixed := f; py_str := g; response := response w; save_time := save_time w;
     fuel := fuel w |}.

(** The clock at exit and the outcome of a loop run, without its log. *)
Definition run_result (x : option (Q * M (list sample))) : option (Q * (exn + list sample)) :=
  option_map (fun p => (fst p, snd (snd p))) x.

(** What one tick [k] whose loop check read the clock [c] appends. *)
Definition tick_sample (w : world) (k : nat) (c : Q) (s : sample) : Prop :=
  (exists glog, get_amd_gpu_stats (amd_gpu_available w) (adl_at w k) =
                (glog, inr (gpu_util s, gpu_temp s, gpu_power s))) /\
  timestamp s = strftime_HMS (c + cpu_time w k + gpu_time w k) /\
  cpu_util s = cpu_percent_at w k.

(** A concrete run: an RX 460 without [getCurrentPower], nominal timings
    (the CPU sampling blocks 0.1 s, the GPU read and the printing take no
    time, sleeps are exact), starting at local midnight. *)
Definition demo_device : device :=
  mk_device (Ok 37) (Ok 55) (Raises (AttributeError "getCurrentPower")) (Ok 45000).

Definition demo_world (resp : string) : world :=
  mk_world true true (fun _ => mk_adl (Ok tt) (Ok [demo_device])) (fun _ => 12)
    (fun _ => 1 # 10) (fun _ => 0) (fun _ => 0) 0 (fun _ _ => "0.0") (fun _ => "0")
    resp (mk_time 2026 10 18 9 5 7) 30.

(** The same run without pyadl installed. *)
Definition demo_world_no_pyadl : world :=
  let w := demo_world "n" in
  {| amd_gpu_available := false; deps_importable := deps_importable w;
     adl_at := adl_at w; cpu_percent_at := cpu_percent_at w; cpu_time := cpu_time w;
     gpu_time := gpu_time w; sleep_extra := sleep_extra w; clock0 := clock0 w;
     fmt_fixed := fmt_fixed w; py_str := py_str w; response := response w;
     save_time := save_time w; fuel := fuel w |}.

(** A library whose initialisation raises an unexpected error. *)
Definition failing_adl : adl :=
  mk_adl (Raises (OtherException "ADL_Main_Control_Create failed")) (Ok [demo_device]).

Definition is_print (ev : event) : Prop :=
  match ev with Print _ => True | _ => False end.

Definition is_write (ev : event) : bool :=
  match ev with WriteFile _ _ => true | _ => false end.

(** Whether a run of [main] writes a CSV file. *)
Definition main_exports (w : world) : bool :=
  match main w with Some (l, _) => existsb is_write l | None => false end.

Definition is_digit (c : ascii) : bool :=
  (48 <=? nat_of_ascii c)%nat && (nat_of_ascii c <=? 57)%nat.

Fixpoint all_digits (s : string) : bool :=
  match s with
  | EmptyString => true
  | String c s' => is_digit c && all_digits s'
  end.

(** The mean of a metric over the samples where it is present, as the spec
    words it: the sum of the present values over their number. *)
Fixpoint sum_present (col : list (option Q)) : Q :=
  match col with
  | [] => 0
  | Some q :: col' => q + sum_present col'
  | None :: col' => sum_present col'
  end.

Fixpoint count_present (col : list (option Q)) : nat :=
  match col with
  | [] => O
  | Some _ :: col' => S (count_present col')
  | None :: col' => count_present col'
  end.

(** The report line of one metric: "unavailable" when it is absent from
    every sample, its mean over the present values otherwise. *)
Definition metric_line_ok (w : world) (col : list (option Q))
    (prefix suffix unavailable line : string) : Prop :=
  (Forall (fun c => c = None) col -> line = unavailable) /\
  (Exists (fun c => c <> None) col ->
     (0 < count_present col)%nat /\
     line = prefix ++ fmt_fixed w 2
                (sum_present col / inject_Z (Z.of_nat (count_present col))) ++ suffix).

(** Events the adapter can produce: calls on the library or device 0, and
    prints. *)
Definition adapter_event (ev : event) : Prop :=
  match ev with Call _ _ | CallLib _ | Print _ => True | _ => False end.

Definition is_lib_call (meth : string) (ev : event) : bool :=
  match ev with CallLib m => String.eqb m meth | _ => false end.

(** How many times the library method [meth] is called in a log. *)
Definition count_lib (meth : string) (l : list event) : nat :=
  List.length (filter (is_lib_call meth) l).

(** [s.split(sep)] *)
Fixpoint split_on (sep : ascii) (s : string) : list string :=
  match s with
  | EmptyString => [EmptyString]
  | String c s' =>
      if Ascii.eqb c sep then EmptyString :: split_on sep s'
      else match split_on sep s' with
           | x :: r => String c x :: r
           | [] => [String c EmptyString]
           end
  end.

Fixpoint has_char (c : ascii) (s : string) : bool :=
  match s with
  | EmptyString => false
  | String c' s' => Ascii.eqb c' c || has_char c s'
  end.

(** The five fields of one exported sample. *)
Definition csv_fields (w : world) (s : sample) : list string :=
  [timestamp s; py_str w (cpu_util s); csv_cell w (gpu_util s);
   csv_cell w (gpu_temp s); csv_cell w (gpu_power s)].

(** ** Proofs *)

Ltac destruct_exn e := destruct e as [?|?|?|?].
Ltac destruct_outcome o := destruct o as [?|[?|?|?|?]].
Ltac destruct_device d :=
  let u := fresh "u" in let t := fresh "t" in let p := fresh "p" in let v := fresh "v" in
  destruct d as [u t p v];
  destruct_outcome u; destruct_outcome t; destruct_outcome p; destruct_outcome v.

Lemma get_amd_gpu_stats_total : forall amd lib,
  exists glog s, get_amd_gpu_stats amd lib = (glog, inr s).
Proof.
  intros amd lib. unfold get_amd_gpu_stats. destruct amd; cbn [negb];
    [| exists [], none3; reflexivity].
  unfold try_exception, try_except.
  destruct (gpu_read_body lib) as [l [e|s]]; cbn; eauto.
Qed.

Lemma get_amd_gpu_stats_no_sleep : forall amd lib,
  sleeps (fst (get_amd_gpu_stats amd lib)) = [].
Proof.
  intros amd [gi gd]. destruct amd; [|reflexivity].
  destruct_outcome gi; [|reflexivity..].
  destruct gd as [[|d ds]|e]; [reflexivity| |destruct_exn e; reflexivity].
  destruct_device d; reflexivity.
Qed.

(** C1 (as amended).  The all-absent result of each unavailable case; a
    diagnostic line is printed only when an initialisation call raises. *)
Theorem get_amd_gpu_stats_unavailable :
  (forall lib, get_amd_gpu_stats false lib = ([], inr none3)) /\
  (forall gi, get_amd_gpu_stats true (mk_adl (Ok gi) (Ok [])) =
              ([CallLib "getInstance"; CallLib "getDevices"], inr none3)) /\
  (forall e gd, get_amd_gpu_stats true (mk_adl (Raises e) gd) =
              ([CallLib "getInstance"; Print (gpu_error_msg e)], inr none3)) /\
  (forall gi e, get_amd_gpu_stats true (mk_adl (Ok gi) (Raises e)) =
              ([CallLib "getInstance"; CallLib "getDevices"; Print (gpu_error_msg e)],
               inr none3)).
Proof. repeat split; reflexivity. Qed.

(** C1: the library-absent and no-device cases return all-absent without
    printing any diagnostic. *)
Lemma get_amd_gpu_stats_silent_cases :
  get_amd_gpu_stats false (mk_adl (Ok tt) (Ok [])) = ([], inr none3) /\
  printed (fst (get_amd_gpu_stats false (mk_adl (Ok tt) (Ok [])))) = [] /\
  snd (get_amd_gpu_stats true (mk_adl (Ok tt) (Ok []))) = inr none3 /\
  printed (fst (get_amd_gpu_stats true (mk_adl (Ok tt) (Ok [])))) = [].
Proof. repeat split; reflexivity. Qed.

(** C3: the power reading tries [getCurrentPower], then
    [getCurrentPowerValue() / 1000], then gives up; utilisation and
    temperature are read independently of it. *)
Theorem get_amd_gpu_stats_power_two_tier : forall gi d ds,
  attr_only (getCurrentUsage d) ->
  attr_only (getCurrentTemperature d) ->
  attr_only (getCurrentPower d) ->
  (exists m, getCurrentPower d = Raises (AttributeError m)) \/
    (exists p, getCurrentPower d = Ok p) ->
  ((exists m, getCurrentPower d = Raises (AttributeError m)) ->
     attr_only (getCurrentPowerValue d)) ->
  snd (get_amd_gpu_stats true (mk_adl (Ok gi) (Ok (d :: ds)))) =
    inr (attr_value (getCurrentUsage d), attr_value (getCurrentTemperature d),
         spec_power d) /\
  (forall m, getCurrentPower d = Raises (AttributeError m) ->
     getCurrentPowerValue d = Ok 45000 -> spec_power d = Some (45000 / 1000)) /\
  45000 / 1000 == 45.
Proof.
  intros gi [u t p v] ds Hu Ht Hp Hp' Hv; simpl in *.
  split; [|split; [intros m -> ->; reflexivity | reflexivity]].
  destruct Hp' as [[m ->]|[q ->]].
  - specialize (Hv (ex_intro _ m eq_refl)).
    destruct_outcome u; try discriminate Hu;
    destruct_outcome t; try discriminate Ht;
    destruct_outcome v; try discriminate Hv; reflexivity.
  - destruct_outcome u; try discriminate Hu;
    destruct_outcome t; try discriminate Ht; reflexivity.
Qed.

Lemma get_amd_gpu_stats_power_two_tier_witness :
  snd (get_amd_gpu_stats true (mk_adl (Ok tt) (Ok [demo_device]))) =
    inr (Some 37, Some 55, spec_power demo_device) /\
  (forall m, getCurrentPower demo_device = Raises (AttributeError m) ->
     getCurrentPowerValue demo_device = Ok 45000 ->
     spec_power demo_device = Some (45000 / 1000)) /\
  45000 / 1000 == 45.
Proof.
  apply (get_amd_gpu_stats_power_two_tier tt demo_device []); simpl;
    [exact I | exact I | reflexivity | left; eexists; reflexivity | intros; exact I].
Defined.

(** C10: only the first enumerated device is queried; the rest of the device
    list has no influence on the call. *)
Theorem get_amd_gpu_stats_first_device : forall amd gi d ds ds',
  get_amd_gpu_stats amd (mk_adl gi (Ok (d :: ds))) =
    get_amd_gpu_stats amd (mk_adl gi (Ok (d :: ds'))) /\
  Forall only_device0 (fst (get_amd_gpu_stats amd (mk_adl gi (Ok (d :: ds))))).
Proof.
  intros amd gi d ds ds'. destruct amd; [|split; [reflexivity | constructor]].
  destruct_outcome gi;
    [| split; [reflexivity | repeat constructor]..].
  destruct_device d; split; try reflexivity; repeat constructor.
Qed.

Lemma sleeps_app : forall l1 l2, sleeps (l1 ++ l2) = (sleeps l1 ++ sleeps l2)%list.
Proof. intros; unfold sleeps; apply flat_map_app. Qed.

Lemma q_lt_true : forall a b, q_lt a b = true -> a < b.
Proof.
  unfold q_lt; intros a b H. apply negb_true_iff in H.
  apply Qnot_le_lt. intros Hle. apply Qle_bool_iff in Hle. congruence.
Qed.

Lemma q_lt_false : forall a b, q_lt a b = false -> b <= a.
Proof.
  unfold q_lt; intros a b H. apply negb_false_iff in H. now apply Qle_bool_iff.
Qed.

Lemma monitor_loop_inv : forall w fuel I E k t data t' l r,
  monitor_loop w fuel I E k t data = Some (t', (l, r)) ->
  exists new, r = inr (data ++ new)%list /\ E <= t' /\
    sleeps l = repeat (py_max0 (I - (1 # 10))) (List.length new) /\
    forall j s, nth_error new j = Some s ->
      exists c, c < E /\ tick_sample w (k + j) c s.
Proof.
  intros w fuel; induction fuel as [|fuel IH]; intros I E k t data t' l r H;
    simpl in H; [discriminate|].
  destruct (q_lt t E) eqn:Hlt.
  - destruct (get_amd_gpu_stats_total (amd_gpu_available w) (adl_at w k))
      as (glog & [[u tp] pw] & Hg).
    pose proof (get_amd_gpu_stats_no_sleep (amd_gpu_available w) (adl_at w k)) as Hns.
    rewrite Hg in H, Hns; simpl in Hns.
    match type of H with
    | context [monitor_loop w fuel ?I' ?E' ?k' ?t0 ?d0] =>
        destruct (monitor_loop w fuel I' E' k' t0 d0) as [[t'' [l'' r'']]|] eqn:Hrec;
        [|discriminate]
    end.
    injection H as <- <- <-.
    destruct (IH _ _ _ _ _ _ _ _ Hrec) as (new & -> & Hle & Hs & Hn).
    eexists (_ :: new); split; [now rewrite <- app_assoc|].
    split; [exact Hle|]. split.
    + rewrite !sleeps_app, Hns, Hs. reflexivity.
    + intros [|j] s Hj; simpl in Hj.
      * injection Hj as <-. exists t. split; [now apply q_lt_true|].
        rewrite Nat.add_0_r. repeat split; eauto.
      * rewrite Nat.add_succ_r. exact (Hn j s Hj).
  - injection H as <- <- <-. exists []. rewrite app_nil_r.
    repeat split; [now apply q_lt_false | intros [|j] s Hj; discriminate].
Qed.

Lemma monitor_system_inv : forall w D I t l r,
  monitor_system w D I = Some (t, (l, r)) ->
  exists data, r = inr data /\ clock0 w + D <= t /\
    sleeps l = repeat (py_max0 (I - (1 # 10))) (List.length data) /\
    forall j s, nth_error data j = Some s ->
      exists c, c < clock0 w + D /\ tick_sample w j c s.
Proof.
  unfold monitor_system; intros w D I t l r H.
  destruct (monitor_loop w (fuel w) I (clock0 w + D) 0 (clock0 w) [])
    as [[t' [l' r']]|] eqn:Hl; [|discriminate].
  injection H as <- <- <-.
  destruct (monitor_loop_inv _ _ _ _ _ _ _ _ _ _ Hl) as (new & -> & Hle & Hs & Hn).
  exists new; repeat split; auto; rewrite sleeps_app, Hs; reflexivity.
Qed.

Lemma monitor_loop_display : forall w f g fuel I E k t data,
  run_result (monitor_loop (with_display w f g) fuel I E k t data) =
  run_result (monitor_loop w fuel I E k t data).
Proof.
  intros w f g fuel; induction fuel as [|fuel IH]; intros I E k t data; [reflexivity|].
  simpl. destruct (q_lt t E); [|reflexivity].
  destruct (get_amd_gpu_stats (amd_gpu_available w) (adl_at w k)) as [glog [e|[[u tp] pw]]];
    [reflexivity|].
  match goal with
  | |- context [monitor_loop w fuel ?I' ?E' ?k' ?t0 ?d0] =>
      specialize (IH I' E' k' t0 d0);
      destruct (monitor_loop w fuel I' E' k' t0 d0) as [[? [? ?]]|];
      destruct (monitor_loop (with_display w f g) fuel I' E' k' t0 d0) as [[? [? ?]]|];
      simpl in IH |- *; congruence
  end.
Qed.

(** C2.  Any exception raised inside the [try] block is caught, printed as
    one diagnostic line and turned into [(None, None, None)]; no exception
    leaves [get_amd_gpu_stats]; so the loop never stops on a GPU failure, and
    the GPU fields of tick [j] depend only on the library's behaviour at
    tick [j]. *)
Theorem get_amd_gpu_stats_absorbs_failures :
  (forall amd lib, exists glog s, get_amd_gpu_stats amd lib = (glog, inr s)) /\
  (forall lib l e, gpu_read_body lib = (l, inl e) ->
     get_amd_gpu_stats true lib = ((l ++ [Print (gpu_error_msg e)])%list, inr none3)) /\
  (forall w D I t l r, monitor_system w D I = Some (t, (l, r)) ->
     exists data, r = inr data /\
       forall j s, nth_error data j = Some s ->
         exists glog, get_amd_gpu_stats (amd_gpu_available w) (adl_at w j) =
                      (glog, inr (gpu_util s, gpu_temp s, gpu_power s))).
Proof.
  split; [exact get_amd_gpu_stats_total|]. split.
  - intros lib l e H. unfold get_amd_gpu_stats, try_exception, try_except.
    cbn [negb]. rewrite H. reflexivity.
  - intros w D I t l r H.
    destruct (monitor_system_inv _ _ _ _ _ _ H) as (data & -> & _ & _ & Hn).
    exists data; split; [reflexivity|].
    intros j s Hj. destruct (Hn j s Hj) as (c & _ & Hg & _). exact Hg.
Qed.

Lemma get_amd_gpu_stats_absorbs_failures_witness :
  get_amd_gpu_stats true failing_adl =
    ([CallLib "getInstance";
      Print (gpu_error_msg (OtherException "ADL_Main_Control_Create failed"))], inr none3) /\
  match monitor_system (demo_world "n") 3 1 with
  | Some (t, (l, r)) =>
      exists data, r = inr data /\
        forall j s, nth_error data j = Some s ->
          exists glog, get_amd_gpu_stats true (adl_at (demo_world "n") j) =
                       (glog, inr (gpu_util s, gpu_temp s, gpu_power s))
  | None => False
  end.
Proof.
  split.
  - apply (proj1 (proj2 get_amd_gpu_stats_absorbs_failures)
             failing_adl [CallLib "getInstance"]).
    reflexivity.
  - destruct (monitor_system (demo_world "n") 3 1) as [[t [l r]]|] eqn:E.
    + exact (proj2 (proj2 get_amd_gpu_stats_absorbs_failures) _ _ _ _ _ _ E).
    + vm_compute in E; discriminate.
Defined.

(** C7 (as amended).  [monitor_system] returns only once a loop check sees
    the clock at or past [start + D], and every sample belongs to a tick whose
    loop check saw the clock before [start + D]: its timestamp is taken after
    that tick's CPU and GPU reads. *)
Theorem monitor_system_time_box : forall w D I t l r,
  monitor_system w D I = Some (t, (l, r)) ->
  exists data, r = inr data /\ clock0 w + D <= t /\
    forall j s, nth_error data j = Some s ->
      exists c, c < clock0 w + D /\
        timestamp s = strftime_HMS (c + cpu_time w j + gpu_time w j).
Proof.
  intros w D I t l r H.
  destruct (monitor_system_inv _ _ _ _ _ _ H) as (data & -> & Hle & _ & Hn).
  exists data; repeat split; auto.
  intros j s Hj. destruct (Hn j s Hj) as (c & Hc & _ & Hts & _). eauto.
Qed.

Lemma monitor_system_time_box_witness :
  match monitor_system (demo_world "n") 20 1 with
  | Some (t, (l, r)) =>
      exists data, r = inr data /\ clock0 (demo_world "n") + 20 <= t /\
        forall j s, nth_error data j = Some s ->
          exists c, c < clock0 (demo_world "n") + 20 /\
            timestamp s = strftime_HMS (c + cpu_time (demo_world "n") j +
                                        gpu_time (demo_world "n") j)
  | None => False
  end.
Proof.
  destruct (monitor_system (demo_world "n") 20 1) as [[t [l r]]|] eqn:E.
  - exact (monitor_system_time_box _ _ _ _ _ _ E).
  - vm_compute in E; discriminate.
Defined.

(** C7: with the script's own [D = 20], [I = 1] and nominal timings the
    twenty timestamps run from 00:00:00 to 00:00:19: they span 19 s, outside
    [[20, 21)]. *)
Lemma monitor_system_span_below_duration :
  match monitor_system (demo_world "n") 20 1 with
  | Some (_, (_, inr data)) =>
      List.length data = 20%nat /\ timestamp_span data = Some 19%Z /\ ~ (20 <= 19)%Z
  | _ => False
  end.
Proof.
  vm_compute. split; [reflexivity | split; [reflexivity|]].
  intros H; apply H; reflexivity.
Qed.

(** C8.  Each tick requests exactly one sleep of [max(0, interval - 0.1)];
    with the CPU sampling window of 0.1 s and [interval >= 0.1], window plus
    sleep request make up exactly [interval]. *)
Theorem monitor_system_pacing : forall w D I t l data,
  monitor_system w D I = Some (t, (l, inr data)) ->
  sleeps l = repeat (py_max0 (I - (1 # 10))) (List.length data) /\
  ((1 # 10) <= I -> (1 # 10) + py_max0 (I - (1 # 10)) == I) /\
  (I <= 1 # 10 -> py_max0 (I - (1 # 10)) = 0).
Proof.
  intros w D I t l data H.
  destruct (monitor_system_inv _ _ _ _ _ _ H) as (data' & Hr & _ & Hs & _).
  injection Hr as <-. split; [exact Hs|]. unfold py_max0. split; intros HI.
  - destruct (Qle_bool (I - (1 # 10)) 0) eqn:B.
    + apply Qle_bool_iff in B. assert (I == 1 # 10) as -> by lra. reflexivity.
    + ring.
  - assert (Qle_bool (I - (1 # 10)) 0 = true) as -> by (apply Qle_bool_iff; lra).
    reflexivity.
Qed.

Lemma monitor_system_pacing_witness :
  match monitor_system (demo_world "n") 3 1 with
  | Some (t, (l, inr data)) =>
      sleeps l = repeat (py_max0 (1 - (1 # 10))) (List.length data) /\
      ((1 # 10) <= 1 -> (1 # 10) + py_max0 (1 - (1 # 10)) == 1) /\
      (1 <= 1 # 10 -> py_max0 (1 - (1 # 10)) = 0)
  | _ => False
  end.
Proof.
  destruct (monitor_system (demo_world "n") 3 1) as [[t [l [e|data]]]|] eqn:E.
  - vm_compute in E; discriminate.
  - exact (monitor_system_pacing _ _ _ _ _ _ E).
  - vm_compute in E; discriminate.
Defined.

(** C9.  The status line shows [N/A] for a utilisation or temperature of
    exactly 0, as for an absent one, while the sample keeps the value the
    adapter returned; the console formatting has no effect on the collected
    data. *)
Theorem status_line_zero_placeholder : forall w D I,
  (forall cpu gt gp, status_line w cpu (Some 0) gt gp = status_line w cpu None gt gp) /\
  (forall cpu gu gp, status_line w cpu gu (Some 0) gp = status_line w cpu gu None gp) /\
  (forall f g, run_result (monitor_system (with_display w f g) D I) =
               run_result (monitor_system w D I)) /\
  (forall t l data j s, monitor_system w D I = Some (t, (l, inr data)) ->
     nth_error data j = Some s ->
     exists glog, get_amd_gpu_stats (amd_gpu_available w) (adl_at w j) =
                  (glog, inr (gpu_util s, gpu_temp s, gpu_power s))).
Proof.
  intros w D I. split; [reflexivity|]. split; [reflexivity|]. split.
  - intros f g. unfold monitor_system. simpl.
    pose proof (monitor_loop_display w f g (fuel w) I (clock0 w + D) 0 (clock0 w) []) as H.
    destruct (monitor_loop w (fuel w) I (clock0 w + D) 0 (clock0 w) []) as [[? [? ?]]|];
    destruct (monitor_loop (with_display w f g) (fuel w) I (clock0 w + D) 0 (clock0 w) [])
      as [[? [? ?]]|]; simpl in H |- *; congruence.
  - intros t l data j s H Hj.
    destruct (monitor_system_inv _ _ _ _ _ _ H) as (data' & Hr & _ & _ & Hn).
    injection Hr as <-. destruct (Hn j s Hj) as (c & _ & Hg & _). exact Hg.
Qed.

Lemma status_line_zero_placeholder_witness :
  match monitor_system (demo_world "n") 2 1 with
  | Some (t, (l, inr data)) =>
      status_line (demo_world "n") 12 (Some 0) None None =
        status_line (demo_world "n") 12 None None None /\
      exists s glog, nth_error data 0 = Some s /\
        get_amd_gpu_stats true (adl_at (demo_world "n") 0) =
          (glog, inr (gpu_util s, gpu_temp s, gpu_power s))
  | _ => False
  end.
Proof.
  destruct (monitor_system (demo_world "n") 2 1) as [[t [l [e|data]]]|] eqn:E;
    [vm_compute in E; discriminate| |vm_compute in E; discriminate].
  pose proof (status_line_zero_placeholder (demo_world "n") 2 1) as (H1 & _ & _ & H4).
  split; [apply H1|].
  destruct (nth_error data 0) as [s|] eqn:Hs.
  - destruct (H4 _ _ _ _ _ E Hs) as [glog Hg]. eauto.
  - vm_compute in E. injection E as _ _ <-. discriminate.
Defined.

Lemma isnull_all_Forall : forall col,
  isnull_all col = true -> Forall (fun c => c = None) col.
Proof.
  induction col as [|[q|] col IH]; simpl; intros H; [constructor|discriminate|].
  constructor; auto.
Qed.

Lemma Exists_not_isnull_all : forall col,
  Exists (fun c => c <> None) col -> isnull_all col = false.
Proof.
  induction col as [|[q|] col IH]; intros H; inversion H; subst; simpl; auto.
  congruence.
Qed.

Lemma sum_present_fold : forall col, fold_right Qplus 0 (present col) = sum_present col.
Proof. induction col as [|[q|] col IH]; simpl; congruence. Qed.

Lemma count_present_length : forall col, List.length (present col) = count_present col.
Proof. induction col as [|[q|] col IH]; simpl; congruence. Qed.

Lemma count_present_pos : forall col,
  Exists (fun c => c <> None) col -> (0 < count_present col)%nat.
Proof.
  induction col as [|[q|] col IH]; intros H; inversion H; subst; simpl; try lia.
  - congruence.
  - apply IH; assumption.
Qed.

Lemma gpu_report_line_ok : forall w col prefix suffix unavailable,
  metric_line_ok w col prefix suffix unavailable
    (gpu_report_line w col prefix suffix unavailable).
Proof.
  intros w col prefix suffix unavailable. unfold metric_line_ok, gpu_report_line. split.
  - intros H. destruct (isnull_all col) eqn:E; [reflexivity|].
    exfalso. induction H as [|c col Hc _ IH]; [discriminate|].
    subst c. simpl in E. exact (IH E).
  - intros H. rewrite (Exists_not_isnull_all _ H). split; [now apply count_present_pos|].
    unfold series_mean. rewrite sum_present_fold, count_present_length. reflexivity.
Qed.

(** C4.  On a finished (non-empty) collection the report prints, for each
    GPU metric, its mean over the samples where it is present, or the
    metric's unavailability message when no sample has it. *)
Theorem aggregate_report_gpu_means : forall w df,
  df <> [] -> amd_gpu_available w = true ->
  exists cpu_line lu lt lp,
    aggregate_report w df =
      ([Print (nl ++ nl ++ "Resultados finales:"); Print cpu_line;
        Print lu; Print lt; Print lp], inr tt) /\
    metric_line_ok w (map gpu_util df) "- GPU: Utilización promedio: " "%"
      msg_util_unavailable lu /\
    metric_line_ok w (map gpu_temp df) "- GPU: Temperatura promedio: " "°C"
      msg_temp_unavailable lt /\
    metric_line_ok w (map gpu_power df) "- GPU: Consumo de energía promedio: " " W"
      msg_power_unavailable lp.
Proof.
  intros w [|s df] Hne Hamd; [contradiction|].
  do 4 eexists. split.
  - unfold aggregate_report. rewrite Hamd. reflexivity.
  - refine (conj _ (conj _ _)); apply gpu_report_line_ok.
Qed.

Lemma aggregate_report_gpu_means_witness :
  exists cpu_line lu lt lp,
    aggregate_report (demo_world "n") [mk_sample "00:00:00" 12 None (Some 55) None] =
      ([Print (nl ++ nl ++ "Resultados finales:"); Print cpu_line;
        Print lu; Print lt; Print lp], inr tt) /\
    metric_line_ok (demo_world "n") [None] "- GPU: Utilización promedio: " "%"
      msg_util_unavailable lu /\
    metric_line_ok (demo_world "n") [Some 55] "- GPU: Temperatura promedio: " "°C"
      msg_temp_unavailable lt /\
    metric_line_ok (demo_world "n") [None] "- GPU: Consumo de energía promedio: " " W"
      msg_power_unavailable lp.
Proof.
  apply (aggregate_report_gpu_means (demo_world "n")
           [mk_sample "00:00:00" 12 None (Some 55) None]);
    [discriminate | reflexivity].
Defined.

(** C5.  Without pyadl, [main] prints only text and returns: no GPU query,
    no sleep, no sample collection, no export; when the core dependencies
    import (always, since the module imported them), the text is the banner
    followed by the pyadl installation guidance. *)
Theorem main_without_pyadl : forall w,
  amd_gpu_available w = false ->
  exists l, main w = Some (l, inr tt) /\ Forall is_print l /\
    (deps_importable w = true -> l = (main_prelude ++ pyadl_guidance)%list).
Proof.
  intros w Hamd. unfold main. rewrite Hamd.
  destruct (deps_importable w); simpl; eexists; (split; [reflexivity|]);
    (split; [repeat constructor | intros H; try discriminate; reflexivity]).
Qed.

Lemma main_without_pyadl_witness :
  exists l, main demo_world_no_pyadl = Some (l, inr tt) /\ Forall is_print l /\
    (deps_importable demo_world_no_pyadl = true ->
     l = (main_prelude ++ pyadl_guidance)%list).
Proof. apply main_without_pyadl. reflexivity. Defined.

Lemma lower_char_s : forall c, lower_char c = "s"%char <-> c = "s"%char \/ c = "S"%char.
Proof.
  intros c. destruct c as [[] [] [] [] [] [] [] []]; vm_compute;
    split; intros H;
    first [ left; reflexivity | right; reflexivity | reflexivity | discriminate H
          | destruct H as [H|H]; discriminate H ].
Qed.

Lemma lower_eq_s : forall s, lower s = "s" <-> s = "s" \/ s = "S".
Proof.
  intros [|c [|c' s]]; simpl.
  - split; [discriminate | intros [H|H]; discriminate].
  - split.
    + intros H. injection H as H. apply lower_char_s in H.
      destruct H as [->| ->]; auto.
    + intros [H|H]; injection H as ->; reflexivity.
  - split; [discriminate | intros [H|H]; discriminate].
Qed.

Lemma length_append : forall s1 s2,
  String.length (s1 ++ s2) = (String.length s1 + String.length s2)%nat.
Proof. induction s1 as [|c s1 IH]; intros s2; simpl; auto. Qed.

Lemma string_append_assoc : forall s1 s2 s3,
  (s1 ++ s2) ++ s3 = s1 ++ s2 ++ s3.
Proof. induction s1 as [|c s1 IH]; intros s2 s3; simpl; congruence. Qed.

Lemma zpad_length : forall n z, String.length (zpad n z) = n.
Proof.
  induction n as [|n IH]; intros z; simpl; [reflexivity|].
  rewrite length_append, IH. simpl. lia.
Qed.

Lemma all_digits_app : forall s1 s2,
  all_digits (s1 ++ s2) = all_digits s1 && all_digits s2.
Proof.
  induction s1 as [|c s1 IH]; intros s2; simpl; [reflexivity|].
  rewrite IH, andb_assoc. reflexivity.
Qed.

Lemma digit_is_digit : forall z, is_digit (digit (z mod 10)) = true.
Proof.
  intros z. unfold is_digit, digit.
  pose proof (Z.mod_pos_bound z 10 ltac:(lia)) as Hb.
  assert (Hn : (Z.to_nat (z mod 10) < 10)%nat) by lia.
  rewrite nat_ascii_embedding by lia.
  apply andb_true_intro; split; apply Nat.leb_le; lia.
Qed.

Lemma zpad_digits : forall n z, all_digits (zpad n z) = true.
Proof.
  induction n as [|n IH]; intros z; cbn [zpad]; [reflexivity|].
  rewrite all_digits_app, IH. cbn [all_digits]. rewrite digit_is_digit. reflexivity.
Qed.

(** C6: the response is lower-cased before the test, so ["S"] exports too. *)
Lemma main_exports_on_uppercase :
  response (demo_world "S") <> "s" /\ main_exports (demo_world "S") = true.
Proof. split; [discriminate | vm_compute; reflexivity]. Qed.

(** C6 (as amended).  The export happens exactly for the answers ["s"] and
    ["S"]; it writes the header and one row per sample to
    [rx460_monitor_<YYYYMMDD>_<HHMMSS>.csv]. *)
Theorem save_step_export : forall w df,
  df <> [] ->
  (lower (response w) = "s" <-> response w = "s" \/ response w = "S") /\
  ((response w = "s" \/ response w = "S") ->
     save_step w df =
       ([Input save_prompt;
         WriteFile (csv_filename (save_time w)) (csv_header :: map (csv_row w) df);
         Print ("Datos guardados en " ++ csv_filename (save_time w))], inr tt)) /\
  (response w <> "s" -> response w <> "S" -> save_step w df = ([Input save_prompt], inr tt)) /\
  to_csv w df = csv_header :: map (csv_row w) df /\
  List.length (to_csv w df) = S (List.length df) /\
  csv_header = "timestamp,cpu_util,gpu_util,gpu_temp,gpu_power" /\
  (forall tm, exists d8 t6,
     csv_filename tm = "rx460_monitor_" ++ d8 ++ "_" ++ t6 ++ ".csv" /\
     d8 = zpad 4 (tm_year tm) ++ zpad 2 (tm_mon tm) ++ zpad 2 (tm_mday tm) /\
     t6 = zpad 2 (tm_hour tm) ++ zpad 2 (tm_min tm) ++ zpad 2 (tm_sec tm) /\
     String.length d8 = 8%nat /\ String.length t6 = 6%nat /\
     all_digits d8 = true /\ all_digits t6 = true).
Proof.
  intros w df Hne.
  assert (Hcsv : to_csv w df = csv_header :: map (csv_row w) df)
    by (destruct df; [contradiction | reflexivity]).
  split; [apply lower_eq_s|]. split; [|split; [|split; [exact Hcsv|split; [|split; [reflexivity|]]]]].
  - intros H. apply lower_eq_s in H. unfold save_step. rewrite H, Hcsv. reflexivity.
  - intros H1 H2. unfold save_step.
    destruct (String.eqb (lower (response w)) "s") eqn:E; [|reflexivity].
    apply String.eqb_eq, lower_eq_s in E. destruct E; contradiction.
  - rewrite Hcsv. simpl. rewrite length_map. reflexivity.
  - intros tm.
    exists (zpad 4 (tm_year tm) ++ zpad 2 (tm_mon tm) ++ zpad 2 (tm_mday tm)),
           (zpad 2 (tm_hour tm) ++ zpad 2 (tm_min tm) ++ zpad 2 (tm_sec tm)).
    split.
    + unfold csv_filename, strftime_YmdHMS. rewrite !string_append_assoc. reflexivity.
    + split; [reflexivity|]. split; [reflexivity|].
      rewrite !length_append, !zpad_length, !all_digits_app, !zpad_digits.
      repeat split.
Qed.

Lemma save_step_export_witness :
  (lower (response (demo_world "S")) = "s" <->
   response (demo_world "S") = "s" \/ response (demo_world "S") = "S") /\
  save_step (demo_world "S") [mk_sample "00:00:00" 12 (Some 37) (Some 55) None] =
    ([Input save_prompt;
      WriteFile "rx460_monitor_20261018_090507.csv"
        [csv_header; "00:00:00,0,0,0,"];
      Print "Datos guardados en rx460_monitor_20261018_090507.csv"], inr tt).
Proof.
  destruct (save_step_export (demo_world "S")
              [mk_sample "00:00:00" 12 (Some 37) (Some 55) None] ltac:(discriminate))
    as (Hlow & Hyes & _).
  split; [exact Hlow|]. rewrite Hyes by (right; reflexivity). reflexivity.
Defined.

(** ** Further properties of the adapter *)

Lemma get_amd_gpu_stats_events : forall amd lib,
  Forall adapter_event (fst (get_amd_gpu_stats amd lib)).
Proof.
  intros amd [gi gd]. destruct amd; [|constructor].
  destruct_outcome gi; [|repeat constructor..].
  destruct gd as [[|d ds]|e]; [repeat constructor| |destruct_exn e; repeat constructor].
  destruct_device d; repeat constructor.
Qed.

Lemma get_amd_gpu_stats_count_instance : forall amd lib,
  count_lib "getInstance" (fst (get_amd_gpu_stats amd lib)) = if amd then 1%nat else 0%nat.
Proof.
  intros amd [gi gd]. destruct amd; [|reflexivity].
  destruct_outcome gi; [|reflexivity..].
  destruct gd as [[|d ds]|e]; [reflexivity| |destruct_exn e; reflexivity].
  destruct_device d; reflexivity.
Qed.

(** The milliwatt fallback [getCurrentPowerValue] is called only when the
    first device's [getCurrentPower] raised [AttributeError]. *)
Theorem get_amd_gpu_stats_fallback_only_after_attr : forall amd lib,
  In (Call 0 "getCurrentPowerValue") (fst (get_amd_gpu_stats amd lib)) ->
  exists d ds m, getDevices lib = Ok (d :: ds) /\
                 getCurrentPower d = Raises (AttributeError m).
Proof.
  intros amd [gi gd] H. destruct amd; [|destruct H].
  destruct_outcome gi;
    [| simpl in H; repeat (destruct H as [H|H]; [discriminate|]); destruct H ..].
  destruct gd as [[|d ds]|e];
    [ simpl in H; repeat (destruct H as [H|H]; [discriminate|]); destruct H
    |
    | destruct_exn e; simpl in H; repeat (destruct H as [H|H]; [discriminate|]);
      destruct H].
  destruct_device d; simpl in H;
    repeat (destruct H as [H|H]; [first [discriminate | eexists _, _, _; split; reflexivity]|]);
    try destruct H; try (eexists _, _, _; split; reflexivity).
Qed.

Lemma get_amd_gpu_stats_fallback_only_after_attr_witness :
  exists d ds m, getDevices (mk_adl (Ok tt) (Ok [demo_device])) = Ok (d :: ds) /\
                 getCurrentPower d = Raises (AttributeError m).
Proof.
  apply (get_amd_gpu_stats_fallback_only_after_attr true (mk_adl (Ok tt) (Ok [demo_device]))).
  simpl. tauto.
Defined.

(** A temperature read that raises anything but [AttributeError] discards
    the utilisation already read, skips the power reads, and prints one
    diagnostic. *)
Theorem get_amd_gpu_stats_temperature_failure : forall gi u e p v ds,
  attr_only u -> is_attribute_error e = false ->
  get_amd_gpu_stats true (mk_adl (Ok gi) (Ok (mk_device u (Raises e) p v :: ds))) =
    ([CallLib "getInstance"; CallLib "getDevices"; Call 0 "getCurrentUsage";
      Call 0 "getCurrentTemperature"; Print (gpu_error_msg e)], inr none3).
Proof.
  intros gi u e p v ds Hu He.
  destruct_outcome u; try discriminate Hu; destruct_exn e; try discriminate He;
    reflexivity.
Qed.

Lemma get_amd_gpu_stats_temperature_failure_witness :
  get_amd_gpu_stats true
    (mk_adl (Ok tt) (Ok [mk_device (Ok 37) (Raises (OtherException "ADL_ERR"))
                                   (Ok 40) (Ok 40000)])) =
    ([CallLib "getInstance"; CallLib "getDevices"; Call 0 "getCurrentUsage";
      Call 0 "getCurrentTemperature"; Print (gpu_error_msg (OtherException "ADL_ERR"))],
     inr none3).
Proof. apply get_amd_gpu_stats_temperature_failure; reflexivity. Defined.

(** When [getCurrentPower] is missing and the milliwatt fallback raises
    anything but [AttributeError], the whole reading degrades to
    [(None, None, None)], utilisation and temperature included. *)
Theorem get_amd_gpu_stats_fallback_failure : forall gi u t m e ds,
  attr_only u -> attr_only t -> is_attribute_error e = false ->
  get_amd_gpu_stats true
    (mk_adl (Ok gi) (Ok (mk_device u t (Raises (AttributeError m)) (Raises e) :: ds))) =
    ([CallLib "getInstance"; CallLib "getDevices"; Call 0 "getCurrentUsage";
      Call 0 "getCurrentTemperature"; Call 0 "getCurrentPower";
      Call 0 "getCurrentPowerValue"; Print (gpu_error_msg e)], inr none3).
Proof.
  intros gi u t m e ds Hu Ht He.
  destruct_outcome u; try discriminate Hu; destruct_outcome t; try discriminate Ht;
    destruct_exn e; try discriminate He; reflexivity.
Qed.

Lemma get_amd_gpu_stats_fallback_failure_witness :
  get_amd_gpu_stats true
    (mk_adl (Ok tt) (Ok [mk_device (Ok 37) (Ok 55) (Raises (AttributeError "getCurrentPower"))
                                   (Raises (OtherException "ADL_ERR"))])) =
    ([CallLib "getInstance"; CallLib "getDevices"; Call 0 "getCurrentUsage";
      Call 0 "getCurrentTemperature"; Call 0 "getCurrentPower";
      Call 0 "getCurrentPowerValue"; Print (gpu_error_msg (OtherException "ADL_ERR"))],
     inr none3).
Proof. apply get_amd_gpu_stats_fallback_failure; exact I || reflexivity. Defined.

(** A call prints at most one line, and only together with the all-absent
    result. *)
Theorem get_amd_gpu_stats_prints_at_most_once : forall amd lib,
  printed (fst (get_amd_gpu_stats amd lib)) = [] \/
  exists e, printed (fst (get_amd_gpu_stats amd lib)) = [gpu_error_msg e] /\
            snd (get_amd_gpu_stats amd lib) = inr none3.
Proof.
  intros amd [gi gd]. destruct amd; [|left; reflexivity].
  destruct_outcome gi; [|right; eexists; split; reflexivity..].
  destruct gd as [[|d ds]|e];
    [left; reflexivity| |destruct_exn e; right; eexists; split; reflexivity].
  destruct_device d;
    first [left; reflexivity | right; eexists; split; reflexivity].
Qed.

(** ** Further properties of the sampling loop *)

Lemma count_lib_app : forall m l1 l2,
  count_lib m (l1 ++ l2) = (count_lib m l1 + count_lib m l2)%nat.
Proof. intros; unfold count_lib; rewrite filter_app, length_app; reflexivity. Qed.

Lemma monitor_loop_log : forall w fuel I E k t data t' l r,
  monitor_loop w fuel I E k t data = Some (t', (l, r)) ->
  exists new, r = inr (data ++ new)%list /\
    Forall (fun ev => is_write ev = false) l /\
    count_lib "getInstance" l =
      (if amd_gpu_available w then List.length new else 0)%nat.
Proof.
  intros w fuel; induction fuel as [|fuel IH]; intros I E k t data t' l r H;
    simpl in H; [discriminate|].
  destruct (q_lt t E) eqn:Hlt.
  - destruct (get_amd_gpu_stats_total (amd_gpu_available w) (adl_at w k))
      as (glog & [[u tp] pw] & Hg).
    pose proof (get_amd_gpu_stats_events (amd_gpu_available w) (adl_at w k)) as Hev.
    pose proof (get_amd_gpu_stats_count_instance (amd_gpu_available w) (adl_at w k)) as Hc.
    rewrite Hg in H, Hev, Hc; simpl in Hev, Hc.
    match type of H with
    | context [monitor_loop w fuel ?I' ?E' ?k' ?t0 ?d0] =>
        destruct (monitor_loop w fuel I' E' k' t0 d0) as [[t'' [l'' r'']]|] eqn:Hrec;
        [|discriminate]
    end.
    injection H as <- <- <-.
    destruct (IH _ _ _ _ _ _ _ _ Hrec) as (new & -> & Hw & Hn).
    eexists (_ :: new); split; [now rewrite <- app_assoc|]. split.
    + rewrite <- app_assoc. apply Forall_app; split.
      * eapply Forall_impl; [|exact Hev]. intros [] Ha; simpl in *; tauto.
      * repeat constructor. exact Hw.
    + rewrite !count_lib_app, Hc, Hn. simpl.
      destruct (amd_gpu_available w); reflexivity.
  - injection H as <- <- <-. exists []. rewrite app_nil_r.
    split; [reflexivity|]. split; [constructor|].
    destruct (amd_gpu_available w); reflexivity.
Qed.

(** Each tick calls the adapter exactly once: with pyadl loaded the log holds
    one [getInstance] call per sample (no retries), without it none. *)
Theorem monitor_system_one_read_per_tick : forall w D I t l data,
  monitor_system w D I = Some (t, (l, inr data)) ->
  count_lib "getInstance" l =
    (if amd_gpu_available w then List.length data else 0)%nat.
Proof.
  unfold monitor_system; intros w D I t l data H.
  destruct (monitor_loop w (fuel w) I (clock0 w + D) 0 (clock0 w) [])
    as [[t' [l' r']]|] eqn:Hl; [|discriminate].
  injection H as <- <- Hr.
  destruct (monitor_loop_log _ _ _ _ _ _ _ _ _ _ Hl) as (new & Hr' & _ & Hc).
  rewrite Hr in Hr'; injection Hr' as ->. unfold count_lib in *. simpl. exact Hc.
Qed.

Lemma monitor_system_one_read_per_tick_witness :
  match monitor_system (demo_world "n") 3 1 with
  | Some (t, (l, inr data)) => count_lib "getInstance" l = List.length data
  | _ => False
  end.
Proof.
  destruct (monitor_system (demo_world "n") 3 1) as [[t [l [e|data]]]|] eqn:E.
  - vm_compute in E; discriminate.
  - exact (monitor_system_one_read_per_tick _ _ _ _ _ _ E).
  - vm_compute in E; discriminate.
Defined.

Lemma py_max0_nonneg : forall x, 0 <= py_max0 x.
Proof.
  intros x; unfold py_max0. destruct (Qle_bool x 0) eqn:B; [apply Qle_refl|].
  apply Qlt_le_weak, Qnot_le_lt. intros H. apply Qle_bool_iff in H. congruence.
Qed.

Lemma inject_nat_succ : forall n,
  inject_Z (Z.of_nat (S n)) == inject_Z (Z.of_nat n) + 1.
Proof. intros n. rewrite Nat2Z.inj_succ, <- Z.add_1_r, inject_Z_plus. reflexivity. Qed.

Section Timing.
Variable w : world.
Hypothesis cpu_blocks : forall k, 1 # 10 <= cpu_time w k.
Hypothesis gpu_nonneg : forall k, 0 <= gpu_time w k.
Hypothesis sleep_nonneg : forall k, 0 <= sleep_extra w k.

Lemma monitor_loop_terminates : forall fuel I E k t data,
  (1 <= fuel)%nat -> 10 * (E - t) + 1 <= inject_Z (Z.of_nat fuel) ->
  exists t' l new, monitor_loop w fuel I E k t data = Some (t', (l, inr (data ++ new)%list)) /\
    (new = [] \/ inject_Z (Z.of_nat (List.length new)) <= 10 * (E - t) + 1).
Proof.
  intros fuel; induction fuel as [|fuel IH]; intros I E k t data Hf Hb; [lia|].
  simpl. destruct (q_lt t E) eqn:Hlt.
  - apply q_lt_true in Hlt.
    destruct (get_amd_gpu_stats_total (amd_gpu_available w) (adl_at w k))
      as (glog & [[u tp] pw] & Hg). rewrite Hg.
    rewrite inject_nat_succ in Hb.
    pose proof (cpu_blocks k); pose proof (gpu_nonneg k); pose proof (sleep_nonneg k).
    pose proof (py_max0_nonneg (I - (1 # 10))).
    match goal with
    | |- context [monitor_loop w fuel ?I' ?E' ?k' ?t0 ?d0] =>
        assert (Hf' : (1 <= fuel)%nat);
        [ destruct fuel; [|lia]; change (inject_Z (Z.of_nat 0)) with 0 in Hb; lra
        | destruct (IH I' E' k' t0 d0 Hf') as (t' & l & new & Hrec & Hn);
          [lra|rewrite Hrec] ]
    end.
    eexists t', _, (_ :: new). split; [rewrite <- (app_assoc data); reflexivity|].
    right. cbn [List.length].
    destruct Hn as [->|Hn].
    + assert (inject_Z (Z.of_nat (S (List.length (@nil sample)))) == 1) by reflexivity.
      lra.
    + pose proof (inject_nat_succ (List.length new)). lra.
  - do 3 eexists. split; [rewrite app_nil_r; reflexivity|]. left; reflexivity.
Qed.

End Timing.

(** When every CPU sampling window blocks at least 0.1 s and the other
    delays are non-negative, a fuel of [10 * D + 1] iterations suffices:
    the loop ends normally with at most [10 * D + 1] samples. *)
Theorem monitor_system_terminates : forall w D I,
  (forall k, 1 # 10 <= cpu_time w k) -> (forall k, 0 <= gpu_time w k) ->
  (forall k, 0 <= sleep_extra w k) ->
  (1 <= fuel w)%nat -> 10 * D + 1 <= inject_Z (Z.of_nat (fuel w)) ->
  exists t l data, monitor_system w D I = Some (t, (l, inr data)) /\
    (data = [] \/ inject_Z (Z.of_nat (List.length data)) <= 10 * D + 1).
Proof.
  intros w D I Hc Hg Hs Hf Hb. unfold monitor_system.
  destruct (monitor_loop_terminates w Hc Hg Hs (fuel w) I (clock0 w + D) 0 (clock0 w) [] Hf)
    as (t & l & new & -> & Hn).
  - setoid_replace (clock0 w + D - clock0 w) with D by ring. exact Hb.
  - do 3 eexists. split; [reflexivity|].
    setoid_replace (clock0 w + D - clock0 w) with D in Hn by ring. exact Hn.
Qed.

Lemma monitor_system_terminates_witness :
  exists t l data, monitor_system (demo_world "n") 2 1 = Some (t, (l, inr data)) /\
    (data = [] \/ inject_Z (Z.of_nat (List.length data)) <= 10 * 2 + 1).
Proof.
  apply monitor_system_terminates; intros; try (vm_compute; discriminate);
    unfold Qle; simpl; lia.
Defined.

(** ** Further properties of the display, the report and the export *)




Lemma present_all_some : forall df,
  present (map (fun s => Some (cpu_util s)) df) = map cpu_util df.
Proof. induction df as [|s df IH]; simpl; congruence. Qed.

(** The CPU line of the report averages [cpu_util] over every sample. *)
Theorem aggregate_report_cpu_mean : forall w df,
  df <> [] ->
  nth_error (printed (fst (aggregate_report w df))) 1 =
    Some ("- CPU: Utilización promedio: " ++
          fmt_fixed w 2 (fold_right Qplus 0 (map cpu_util df) /
                         inject_Z (Z.of_nat (List.length df))) ++ "%").
Proof.
  intros w [|s df] Hne; [contradiction|].
  unfold aggregate_report. unfold series_mean. rewrite present_all_some, length_map.
  destruct (amd_gpu_available w); reflexivity.
Qed.

Lemma aggregate_report_cpu_mean_witness :
  nth_error (printed (fst (aggregate_report (demo_world "n")
                             [mk_sample "00:00:00" 12 None None None]))) 1 =
    Some ("- CPU: Utilización promedio: " ++
          fmt_fixed (demo_world "n") 2
            (fold_right Qplus 0 (map cpu_util [mk_sample "00:00:00" 12 None None None]) /
             inject_Z (Z.of_nat 1)) ++ "%").
Proof. apply aggregate_report_cpu_mean. discriminate. Defined.

Lemma split_on_no_sep : forall sep a,
  has_char sep a = false -> split_on sep a = [a].
Proof.
  induction a as [|c a IH]; simpl; intros H; [reflexivity|].
  apply orb_false_iff in H as [Hc Ha]. rewrite Hc, IH by exact Ha. reflexivity.
Qed.

Lemma split_on_app : forall sep a b,
  has_char sep a = false -> split_on sep (a ++ String sep b) = a :: split_on sep b.
Proof.
  induction a as [|c a IH]; simpl; intros b H.
  - rewrite Ascii.eqb_refl. reflexivity.
  - apply orb_false_iff in H as [Hc Ha]. rewrite Hc, IH by exact Ha. reflexivity.
Qed.

Lemma split_csv_rows : forall w df,
  (forall q, py_str w q <> "" /\ has_char "," (py_str w q) = false) ->
  Forall (fun s => has_char "," (timestamp s) = false) df ->
  map (split_on ",") (map (csv_row w) df) = map (csv_fields w) df.
Proof.
  intros w df Hpy Hts.
  assert (Hc : forall c, has_char "," (csv_cell w c) = false)
    by (intros [q|]; [apply Hpy | reflexivity]).
  induction Hts as [|s df Hs Hdf IH]; [reflexivity|]. simpl map. rewrite IH. f_equal.
  unfold csv_row, csv_fields.
  assert (Hcomma : forall x, "," ++ x = String "," x) by reflexivity.
  rewrite !Hcomma, !split_on_app by (apply Hpy || apply Hc || exact Hs).
  rewrite split_on_no_sep by apply Hc. reflexivity.
Qed.

(** Splitting the exported lines on commas gives back the five column names
    and, for each sample, its five fields, an absent GPU reading being the
    empty field; provided the number rendering is never empty and has no
    comma, and the timestamps have none. *)
Theorem to_csv_split_roundtrip : forall w df,
  df <> [] ->
  (forall q, py_str w q <> "" /\ has_char "," (py_str w q) = false) ->
  Forall (fun s => has_char "," (timestamp s) = false) df ->
  map (split_on ",") (to_csv w df) =
    ["timestamp"; "cpu_util"; "gpu_util"; "gpu_temp"; "gpu_power"] :: map (csv_fields w) df /\
  (forall c, csv_cell w c = "" <-> c = None).
Proof.
  intros w df Hne Hpy Hts. split.
  - destruct df as [|s0 df]; [contradiction|]. unfold to_csv.
    rewrite map_cons, (split_csv_rows w (s0 :: df) Hpy Hts). reflexivity.
  - intros [q|]; simpl; split; intros H; try reflexivity.
    + exfalso. exact (proj1 (Hpy q) H).
    + discriminate.
Qed.

Lemma to_csv_split_roundtrip_witness :
  map (split_on ",") (to_csv (demo_world "n") [mk_sample "00:00:00" 12 None (Some 55) None]) =
    ["timestamp"; "cpu_util"; "gpu_util"; "gpu_temp"; "gpu_power"] ::
      map (csv_fields (demo_world "n")) [mk_sample "00:00:00" 12 None (Some 55) None] /\
  (forall c, csv_cell (demo_world "n") c = "" <-> c = None).
Proof.
  apply to_csv_split_roundtrip;
    [discriminate | intros q; split; [discriminate | reflexivity] | repeat constructor].
Defined.

(** ** [main] as a composition *)

Lemma q_lt_of_lt : forall a b, a < b -> q_lt a b = true.
Proof.
  unfold q_lt; intros a b H. apply negb_true_iff.
  destruct (Qle_bool b a) eqn:E; [|reflexivity].
  apply Qle_bool_iff in E. exfalso. apply (Qlt_not_le a b H E).
Qed.

Lemma monitor_system_no_write : forall w D I t l r,
  monitor_system w D I = Some (t, (l, r)) ->
  Forall (fun ev => is_write ev = false) l.
Proof.
  unfold monitor_system; intros w D I t l r H.
  destruct (monitor_loop w (fuel w) I (clock0 w + D) 0 (clock0 w) [])
    as [[t' [l' r']]|] eqn:Hl; [|discriminate].
  injection H as <- <- <-.
  destruct (monitor_loop_log _ _ _ _ _ _ _ _ _ _ Hl) as (new & _ & Hw & _).
  repeat constructor. exact Hw.
Qed.

Lemma monitor_system_first_pass : forall w D I t l r,
  0 < D ->
  monitor_system w D I = Some (t, (l, r)) ->
  exists s data, r = inr (s :: data).
Proof.
  unfold monitor_system; intros w D I t l r HD H.
  destruct (monitor_loop w (fuel w) I (clock0 w + D) 0 (clock0 w) [])
    as [[t' [l' r']]|] eqn:Hl; [|discriminate].
  injection H as <- <- <-.
  destruct (fuel w) as [|f]; simpl in Hl; [discriminate|].
  rewrite q_lt_of_lt in Hl by lra.
  destruct (get_amd_gpu_stats_total (amd_gpu_available w) (adl_at w 0))
    as (glog & [[u tp] pw] & Hg).
  rewrite Hg in Hl.
  match type of Hl with
  | context [monitor_loop w f ?I' ?E' ?k' ?t0 ?d0] =>
      destruct (monitor_loop w f I' E' k' t0 d0) as [[t'' [l'' r'']]|] eqn:Hrec;
      [|discriminate]
  end.
  injection Hl as _ _ <-.
  destruct (monitor_loop_log _ _ _ _ _ _ _ _ _ _ Hrec) as (new & -> & _ & _).
  eexists _, new. reflexivity.
Qed.



Lemma aggregate_report_nonempty : forall w s df,
  exists l, aggregate_report w (s :: df) = (l, inr tt) /\
    Forall (fun ev => is_write ev = false) l.
Proof.
  intros w s df. unfold aggregate_report.
  destruct (amd_gpu_available w); eexists; split; first [reflexivity | repeat constructor].
Qed.

Lemma main_run : forall w l r,
  main w = Some (l, r) ->
  (deps_importable w = false \/ amd_gpu_available w = false) /\
    Forall (fun ev => is_write ev = false) l /\ r = inr tt \/
  deps_importable w = true /\ amd_gpu_available w = true /\
  exists t ml s data la ls,
    monitor_system w 20 1 = Some (t, (ml, inr (s :: data))) /\
    aggregate_report w (s :: data) = (la, inr tt) /\
    Forall (fun ev => is_write ev = false) la /\
    save_step w (s :: data) = (ls, r) /\
    l = (main_prelude ++ ml ++ la ++ ls)%list.
Proof.
  intros w l r H. unfold main in H.
  destruct (deps_importable w) eqn:Hd; simpl in H.
  - destruct (amd_gpu_available w) eqn:Ha; simpl in H.
    + destruct (monitor_system w 20 1) as [[t [ml mr]]|] eqn:Hm; [|discriminate].
      destruct (monitor_system_first_pass w 20 1 t ml mr ltac:(reflexivity) Hm)
        as (s & data & ->).
      destruct (aggregate_report_nonempty w s data) as (la & Hagg & Hw).
      cbv beta iota delta [bind] in H. rewrite Hagg in H.
      destruct (save_step w (s :: data)) as [ls rs] eqn:Hs.
      injection H as <- <-. right. split; [reflexivity|]. split; [reflexivity|].
      exists t, ml, s, data, la, ls.
      repeat split; try assumption; try (now rewrite ?app_nil_r, ?app_assoc).
    + injection H as <- <-. left. split; [now right|].
      split; [repeat constructor | reflexivity].
  - injection H as <- <-. left. split; [now left|].
    split; [repeat constructor | reflexivity].
Qed.



(** A file is written only by the save step at the end of a full run: its
    name is built from the local time at the prompt, the answer lowered is
    ["s"], and its lines are the header and one row per sample collected by
    [monitor_system(20, 1)], in order.  At most one file is written. *)
Theorem main_export_source : forall w l r name lines,
  main w = Some (l, r) ->
  In (WriteFile name lines) l ->
  name = csv_filename (save_time w) /\ lower (response w) = "s" /\
  List.length (filter is_write l) = 1%nat /\
  exists t ml data, monitor_system w 20 1 = Some (t, (ml, inr data)) /\
    lines = csv_header :: map (csv_row w) data /\ data <> [].
Proof.
  intros w l r name lines H Hin.
  destruct (main_run w l r H) as [(_ & Hw & _) | (_ & _ & t & ml & s & data & la & ls & Hm & _ & Hwa & Hs & ->)].
  - exfalso. rewrite Forall_forall in Hw. specialize (Hw _ Hin). discriminate.
  - pose proof (monitor_system_no_write _ _ _ _ _ _ Hm) as Hwm.
    assert (Hfl : forall l0, Forall (fun ev => is_write ev = false) l0 -> filter is_write l0 = []).
    { intros l0 Hl0. induction Hl0 as [|ev l0 Hev _ IH]; simpl; [reflexivity|]. now rewrite Hev. }
    unfold save_step in Hs.
    destruct (String.eqb (lower (response w)) "s") eqn:Es.
    + apply String.eqb_eq in Es. simpl in Hs. injection Hs as <- _.
      rewrite !in_app_iff in Hin. destruct Hin as [Hin | [Hin | [Hin | Hin]]].
      * exfalso. simpl in Hin. intuition discriminate.
      * exfalso. rewrite Forall_forall in Hwm. specialize (Hwm _ Hin). discriminate.
      * exfalso. rewrite Forall_forall in Hwa. specialize (Hwa _ Hin). discriminate.
      * simpl in Hin. destruct Hin as [Hin | [Hin | [Hin | []]]]; try discriminate.
        injection Hin as <- <-. split; [reflexivity|]. split; [exact Es|]. split.
        -- rewrite !filter_app, (Hfl _ Hwm), (Hfl _ Hwa). reflexivity.
        -- exists t, ml, (s :: data). split; [exact Hm|]. split; [reflexivity|discriminate].
    + injection Hs as <- _. exfalso.
      rewrite !in_app_iff in Hin. destruct Hin as [Hin | [Hin | [Hin | Hin]]].
      * simpl in Hin. intuition discriminate.
      * rewrite Forall_forall in Hwm. specialize (Hwm _ Hin). discriminate.
      * rewrite Forall_forall in Hwa. specialize (Hwa _ Hin). discriminate.
      * simpl in Hin. intuition discriminate.
Qed.

Lemma main_export_source_witness :
  exists l r name lines,
    main (demo_world "s") = Some (l, r) /\ In (WriteFile name lines) l /\
    (name = csv_filename (save_time (demo_world "s")) /\ lower (response (demo_world "s")) = "s" /\
     List.length (filter is_write l) = 1%nat /\
     exists t ml data, monitor_system (demo_world "s") 20 1 = Some (t, (ml, inr data)) /\
       lines = csv_header :: map (csv_row (demo_world "s")) data /\ data <> []).
Proof.
  destruct (main (demo_world "s")) as [[l r]|] eqn:E.
  - pose proof E as E'. vm_compute in E'. injection E' as El Er.
    assert (Hin : exists name lines, In (WriteFile name lines) l).
    { rewrite <- El. do 2 eexists. repeat (first [left; reflexivity | right]). }
    destruct Hin as (name & lines & Hin).
    exists l, r, name, lines. split; [reflexivity|]. split; [exact Hin|].
    exact (main_export_source _ _ _ _ _ E Hin).
  - vm_compute in E; discriminate.
Defined.
